(** * SynthralOS guardrails: the Python validation stub

    A shallow embedding of
    [server/services/guardrails/validation/pydantic_validator.py]
    (class [ValidationResult] and the two static methods of
    [PydanticValidator]) over a small model of the Python object store,
    followed by the properties of the stub. *)

From Stdlib Require Import ZArith String.
From Stdlib Require Import Floats.SpecFloat.
From stdpp Require Import gmap strings list fin_maps.

Local Open Scope Z_scope.
Local Open Scope string_scope.

(** ** A fragment of the Python runtime

    Just enough of Python to run the module: values with identity, a store
    of mutable objects, the truth test behind [or], attribute assignment
    and allocation. *)
Module Py.

(** Object identity ([id(x)]) of a store-allocated object. *)
Abbreviation loc := positive.

(** A raised exception, by the name of its class. *)
Inductive exn := Exn (cls : string).

(** Values a name can be bound to: the immediate ones a JSON-like payload
    carries, and references to objects of the store. *)
Inductive value :=
| VNone
| VBool (b : bool)
| VInt (n : Z)
| VFloat (x : spec_float)
| VStr (s : string)
| VRef (l : loc).

(** What [bool(x)] does on an instance: classes without [__bool__] and
    [__len__] are always true, the others answer or raise (as an array of
    several elements does). *)
Inductive truth_protocol :=
| DefaultTruth
| ConstTruth (b : bool)
| RaisingTruth (e : exn).

Record class := { cls_name : string; cls_truth : truth_protocol }.

Inductive object :=
| OList (items : list value)
| OTuple (items : list value)
| ODict (entries : list (value * value))
| OInst (c : class) (attrs : gmap string value).

Abbreviation heap := (gmap loc object).

(** The result of running a piece of code: a value, a raised exception,
    or [Wrong] when the store is ill-formed (a dangling reference, an
    attribute stored on something that is no instance), which no Python
    execution reaches. *)
Inductive outcome (A : Type) :=
| Ret (a : A)
| Raise (e : exn)
| Wrong.
Arguments Ret {A} a.
Arguments Raise {A} e.
Arguments Wrong {A}.

(** Computations over the store. *)
Definition M (A : Type) : Type := heap -> outcome (A * heap).

Definition ret {A} (a : A) : M A := fun h => Ret (a, h).

Definition bind {A B} (m : M A) (k : A -> M B) : M B :=
  fun h =>
    match m h with
    | Ret (a, h') => k a h'
    | Raise e => Raise e
    | Wrong => Wrong
    end.

#[global] Instance M_ret : MRet M := @ret.
#[global] Instance M_bind : MBind M := fun A B k m => bind m k.

Definition float_is_zero (x : spec_float) : bool :=
  match x with
  | S754_zero _ => true
  | _ => false
  end.

Definition is_nil {A} (l : list A) : bool :=
  match l with
  | [] => true
  | _ => false
  end.

(** The truth test of [if], [or], [and], [not].  The test of a built-in
    value reads the store and changes nothing; a user-defined [__bool__] or
    [__len__] is modelled by its answer only (a constant or an exception),
    not by what else it may do to the store. *)
Definition truth (h : heap) (v : value) : outcome bool :=
  match v with
  | VNone => Ret false
  | VBool b => Ret b
  | VInt n => Ret (negb (Z.eqb n 0))
  | VFloat x => Ret (negb (float_is_zero x))
  | VStr s => Ret (negb (String.eqb s ""))
  | VRef l =>
      match h !! l with
      | None => Wrong
      | Some (OList items) => Ret (negb (is_nil items))
      | Some (OTuple items) => Ret (negb (is_nil items))
      | Some (ODict entries) => Ret (negb (is_nil entries))
      | Some (OInst c _) =>
          match cls_truth c with
          | DefaultTruth => Ret true
          | ConstTruth b => Ret b
          | RaisingTruth e => Raise e
          end
      end
  end.

(** Allocation: a new object gets an identity no live object has. *)
Definition alloc (o : object) : M loc :=
  fun h => let l := fresh (dom h) in Ret (l, <[l := o]> h).

(** The display [[]]: a new empty list on every evaluation. *)
Definition new_list (items : list value) : M value :=
  fun h => let l := fresh (dom h) in Ret (VRef l, <[l := OList items]> h).

(** [target.name = v] *)
Definition setattr (target : value) (name : string) (v : value) : M unit :=
  fun h =>
    match target with
    | VRef l =>
        match h !! l with
        | Some (OInst c attrs) =>
            Ret (tt, <[l := OInst c (<[name := v]> attrs)]> h)
        | _ => Wrong
        end
    | _ => Wrong
    end.

(** [x or y]: [x] when it is true, else the value of [y]; [y] is only
    evaluated in the second case. *)
Definition py_or (x : value) (y : M value) : M value :=
  fun h =>
    match truth h x with
    | Ret true => Ret (x, h)
    | Ret false => y h
    | Raise e => Raise e
    | Wrong => Wrong
    end.

(** Reading the instance attribute [r.name] off the instance's own table.
    Names that the class provides ([__doc__], [__class__], [__init__]) are
    not modelled: the reading is exact for the names [__init__] assigns. *)
Definition getattr (h : heap) (r : value) (name : string) : option value :=
  match r with
  | VRef l =>
      match h !! l with
      | Some (OInst _ attrs) => attrs !! name
      | _ => None
      end
  | _ => None
  end.

(** The items of a value that is a list. *)
Definition list_items (h : heap) (v : value) : option (list value) :=
  match v with
  | VRef l =>
      match h !! l with
      | Some (OList items) => Some items
      | _ => None
      end
  | _ => None
  end.

(** Sequences in Python's sense (indexable and iterable in order):
    strings, lists and tuples. *)
Definition is_sequence (h : heap) (v : value) : bool :=
  match v with
  | VStr _ => true
  | VRef l =>
      match h !! l with
      | Some (OList _) | Some (OTuple _) => true
      | _ => false
      end
  | _ => false
  end.

End Py.
Import Py.

(** ** The module [pydantic_validator] *)

(** [class ValidationResult] *)
Module ValidationResult.

(** The class defines neither [__bool__] nor [__len__]. *)
Definition cls : class :=
  {| cls_name := "ValidationResult"; cls_truth := DefaultTruth |}.

(** [def __init__(self, valid=True, errors=None, warnings=None)] *)
Definition __init__ (self valid errors warnings : value) : M unit :=
  setattr self "valid" valid ;;
  e ← py_or errors (new_list []);
  setattr self "errors" e ;;
  w ← py_or warnings (new_list []);
  setattr self "warnings" w.

(** The call [ValidationResult(...)]: an omitted argument ([None] here)
    takes the default of the signature, a new instance is allocated and
    initialised, and the instance is the value of the call. *)
Definition new (valid errors warnings : option value) : M value :=
  self ← alloc (OInst cls ∅);
  __init__ (VRef self)
    (default (VBool true) valid)
    (default VNone errors)
    (default VNone warnings) ;;
  mret (VRef self).

End ValidationResult.

(** [class PydanticValidator] *)
Module PydanticValidator.

(** [@staticmethod def validate_agent_input(input_data)] *)
Definition validate_agent_input (input_data : value) : M value :=
  ValidationResult.new (Some (VBool true)) None None.

(** [@staticmethod def validate_agent_output(output_data)] *)
Definition validate_agent_output (output_data : value) : M value :=
  ValidationResult.new (Some (VBool true)) None None.

End PydanticValidator.
Import PydanticValidator.

(** ** Observing results *)

(** What a value denotes in a store: an immediate value itself, a reference
    the object it points to. *)
Inductive snapshot :=
| SImm (v : value)
| SObj (o : object)
| SDangling.

Definition snap (h : heap) (v : value) : snapshot :=
  match v with
  | VRef l =>
      match h !! l with
      | Some o => SObj o
      | None => SDangling
      end
  | _ => SImm v
  end.

(** The three fields of a result as a caller reads them. *)
Record observation := Observation {
  obs_valid : snapshot;
  obs_errors : snapshot;
  obs_warnings : snapshot
}.

Definition observe (h : heap) (r : value) : option observation :=
  v ← getattr h r "valid";
  e ← getattr h r "errors";
  w ← getattr h r "warnings";
  Some (Observation (snap h v) (snap h e) (snap h w)).

(** [valid=True, errors=[], warnings=[]] *)
Definition passed : observation :=
  Observation (SImm (VBool true)) (SObj (OList [])) (SObj (OList [])).

(** [r] is an instance of [ValidationResult]. *)
Definition is_result (h : heap) (r : value) : Prop :=
  match r with
  | VRef l =>
      match h !! l with
      | Some (OInst c _) => c = ValidationResult.cls
      | _ => False
      end
  | _ => False
  end.

(** The attribute table [__init__] leaves on the instance. *)
Definition result_attrs (v e w : value) : gmap string value :=
  <["warnings" := w]> (<["errors" := e]> (<["valid" := v]> ∅)).

(** How [arg or []] relates the argument, its truth value and the stored
    field: a true argument is stored itself, a false one is replaced by a
    list that did not exist before the call and is empty after it. *)
Definition normalised (h h' : heap) (arg : value) (b : bool) (field : value)
  : Prop :=
  if b then field = arg
  else exists l, field = VRef l /\ h !! l = None /\ h' !! l = Some (OList []).

(** The two entry points of the validator. *)
Definition validator (f : value -> M value) : Prop :=
  f = validate_agent_input \/ f = validate_agent_output.

(** [vars(r)]: the instance's own attribute table. *)
Definition vars (h : heap) (r : value) : option (gmap string value) :=
  match r with
  | VRef l =>
      match h !! l with
      | Some (OInst _ attrs) => Some attrs
      | _ => None
      end
  | _ => None
  end.

(** The list [arg or []] makes: none for a true argument, the list stored
    in the field for a false one. *)
Definition made (b : bool) (field : value) : gset positive :=
  match b, field with
  | false, VRef l => {[l]}
  | _, _ => ∅
  end.

(** The truth test of [v] is Python's own: [v] is no instance of a class
    with a [__bool__] or [__len__] of its own, so that testing it runs no
    user code. *)
Definition truth_is_builtin (h : heap) (v : value) : bool :=
  match v with
  | VRef l =>
      match h !! l with
      | Some (OInst c _) =>
          match cls_truth c with
          | DefaultTruth => true
          | _ => false
          end
      | _ => true
      end
  | _ => true
  end.

(** [r.name] read as a list. *)
Definition field_items (h : heap) (r : value) (name : string)
  : option (list value) :=
  e ← getattr h r name; list_items h e.

(** The objects a result is made of: the instance and its two fields. *)
Definition parts (h : heap) (r : value) : option (list value) :=
  e ← getattr h r "errors";
  w ← getattr h r "warnings";
  Some [r; e; w].


(** [x] is an object that does not exist in [h]. *)
Definition unused (h : heap) (x : value) : Prop :=
  exists l, x = VRef l /\ h !! l = None.

(** [m] run in [h] returns, and its value and final store satisfy [P]. *)
Definition returns_with (m : M value) (h : heap)
    (P : heap -> value -> Prop) : Prop :=
  exists r h', m h = Ret (r, h') /\ P h' r.

(** A class whose instances refuse the truth test. *)
Definition ambiguous_cls : class :=
  {| cls_name := "ndarray"; cls_truth := RaisingTruth (Exn "ValueError") |}.

(** A store with a list of one error descriptor, an empty list and an
    object whose truth test raises. *)
Definition sample_store : heap :=
  <[3%positive := OInst ambiguous_cls ∅]>
    (<[2%positive := OList []]>
       {[1%positive := OList [VStr "name: field required"]]}).

(** ** Running the primitives *)

Section Primitives.
Implicit Types (h : heap) (l : loc) (v : value) (o : object).

Lemma fresh_unused h : h !! fresh (dom h) = None.
Proof. apply not_elem_of_dom, is_fresh. Qed.

Lemma bind_run {A B} (m : M A) (k : A -> M B) h a h1 :
  m h = Ret (a, h1) -> (m ≫= k) h = k a h1.
Proof. intros Hm. unfold mbind, M_bind, bind. now rewrite Hm. Qed.

Lemma alloc_run o h :
  alloc o h = Ret (fresh (dom h), <[fresh (dom h) := o]> h).
Proof. reflexivity. Qed.

Lemma setattr_run h l c attrs name v :
  h !! l = Some (OInst c attrs) ->
  setattr (VRef l) name v h
  = Ret (tt, <[l := OInst c (<[name := v]> attrs)]> h).
Proof. intros Hl. unfold setattr. now rewrite Hl. Qed.

(** The truth of a value only depends on the object it refers to. *)
Lemma truth_insert_ne h l o v (b : outcome bool) :
  h !! l = None -> b <> Wrong -> truth h v = b -> truth (<[l := o]> h) v = b.
Proof.
  intros Hl Hb Ht. destruct v; simpl in *; try exact Ht.
  destruct (decide (l = l0)) as [->|Hne].
  - rewrite Hl in Ht. congruence.
  - now rewrite lookup_insert_ne.
Qed.

Lemma truth_override h l c a a' v :
  h !! l = Some (OInst c a) ->
  truth (<[l := OInst c a']> h) v = truth h v.
Proof.
  intros Hl. destruct v; simpl; try reflexivity.
  destruct (decide (l = l0)) as [->|Hne].
  - now rewrite lookup_insert_eq, Hl.
  - now rewrite lookup_insert_ne.
Qed.

Lemma py_or_true h x (y : M value) :
  truth h x = Ret true -> py_or x y h = Ret (x, h).
Proof. intros Ht. unfold py_or. now rewrite Ht. Qed.

Lemma py_or_false h x (y : M value) :
  truth h x = Ret false -> py_or x y h = y h.
Proof. intros Ht. unfold py_or. now rewrite Ht. Qed.

(** A value with a truth value is no reference to an unused location. *)
Lemma truth_ret_live h v b l :
  truth h v = Ret b -> h !! l = None -> v <> VRef l.
Proof. intros Ht Hl ->. simpl in Ht. now rewrite Hl in Ht. Qed.

End Primitives.

(** ** Running the constructor *)

Section Constructor.
Implicit Types (h : heap) (l : loc) (v e w : value).

Lemma truth_mono h h' v b :
  h ⊆ h' -> truth h v = Ret b -> truth h' v = Ret b.
Proof.
  intros Hsub Ht. destruct v; simpl in *; try exact Ht.
  destruct (h !! l) as [o|] eqn:Hl; [|discriminate].
  now rewrite (lookup_weaken _ _ _ _ Hl Hsub).
Qed.

(** [x or []] *)
Lemma or_empty_run h x b :
  truth h x = Ret b ->
  exists f h',
    py_or x (new_list []) h = Ret (f, h')
    /\ normalised h h' x b f
    /\ h ⊆ h'
    /\ (b = false -> forall y c, truth h y = Ret c -> f <> y).
Proof.
  intros Ht. destruct b.
  - exists x, h. rewrite (py_or_true _ _ _ Ht).
    repeat split; [reflexivity | discriminate].
  - exists (VRef (fresh (dom h))), (<[fresh (dom h) := OList []]> h).
    rewrite (py_or_false _ _ _ Ht).
    pose proof (fresh_unused h) as Hf.
    repeat split.
    + exists (fresh (dom h)). now rewrite lookup_insert_eq.
    + now apply insert_subseteq.
    + intros _ y c Hy Heq. symmetry in Heq. revert Heq.
      now apply (truth_ret_live h y c).
Qed.

Lemma init_run h s c a v e w be bw :
  h !! s = Some (OInst c a) ->
  truth h e = Ret be ->
  truth h w = Ret bw ->
  exists e' w' h',
    ValidationResult.__init__ (VRef s) v e w h = Ret (tt, h')
    /\ h' !! s = Some (OInst c (<["warnings" := w']>
                                 (<["errors" := e']> (<["valid" := v]> a))))
    /\ normalised h h' e be e'
    /\ normalised h h' w bw w'
    /\ (forall l o, l <> s -> h !! l = Some o -> h' !! l = Some o)
    /\ (be = false \/ bw = false -> e' <> w').
Proof.
  intros Hs He Hw. unfold ValidationResult.__init__.
  (* self.valid = valid *)
  erewrite bind_run by (apply setattr_run; exact Hs).
  set (h1 := <[s := _]> h).
  assert (Hs1 : h1 !! s = Some (OInst c (<["valid" := v]> a)))
    by apply lookup_insert_eq.
  assert (He1 : truth h1 e = Ret be)
    by (unfold h1; now rewrite (truth_override _ _ _ _ _ _ Hs)).
  assert (Hw1 : truth h1 w = Ret bw)
    by (unfold h1; now rewrite (truth_override _ _ _ _ _ _ Hs)).
  (* errors or [] *)
  destruct (or_empty_run h1 e be He1) as (e' & h2 & Hrun2 & Hn2 & Hsub2 & Hfr2).
  erewrite bind_run by exact Hrun2.
  assert (Hs2 : h2 !! s = Some (OInst c (<["valid" := v]> a)))
    by exact (lookup_weaken _ _ _ _ Hs1 Hsub2).
  (* self.errors = ... *)
  erewrite bind_run by (apply setattr_run; exact Hs2).
  set (h3 := <[s := _]> h2).
  assert (Hs3 : h3 !! s
                = Some (OInst c (<["errors" := e']> (<["valid" := v]> a))))
    by apply lookup_insert_eq.
  assert (Hw3 : truth h3 w = Ret bw).
  { unfold h3. rewrite (truth_override _ _ _ _ _ _ Hs2).
    exact (truth_mono _ _ _ _ Hsub2 Hw1). }
  (* warnings or [] *)
  destruct (or_empty_run h3 w bw Hw3) as (w' & h4 & Hrun4 & Hn4 & Hsub4 & Hfr4).
  erewrite bind_run by exact Hrun4.
  assert (Hs4 : h4 !! s
                = Some (OInst c (<["errors" := e']> (<["valid" := v]> a))))
    by exact (lookup_weaken _ _ _ _ Hs3 Hsub4).
  (* self.warnings = ... *)
  rewrite (setattr_run _ _ _ _ _ _ Hs4).
  set (h5 := <[s := _]> h4).
  assert (He3 : truth h3 e = Ret be).
  { unfold h3. rewrite (truth_override _ _ _ _ _ _ Hs2).
    exact (truth_mono _ _ _ _ Hsub2 He1). }
  assert (H13 : forall l o, l <> s -> h1 !! l = Some o -> h3 !! l = Some o).
  { intros l o Hne Hl. unfold h3. rewrite lookup_insert_ne by congruence.
    exact (lookup_weaken _ _ _ _ Hl Hsub2). }
  assert (H35 : forall l o, l <> s -> h3 !! l = Some o -> h5 !! l = Some o).
  { intros l o Hne Hl. unfold h5. rewrite lookup_insert_ne by congruence.
    exact (lookup_weaken _ _ _ _ Hl Hsub4). }
  assert (H01 : forall l, l <> s -> h1 !! l = h !! l).
  { intros l Hne. unfold h1. now rewrite lookup_insert_ne by congruence. }
  exists e', w', h5. split; [reflexivity|].
  split; [apply lookup_insert_eq|].
  split; [|split; [|split]].
  - (* the errors field *)
    destruct be; [exact Hn2|].
    destruct Hn2 as (le & -> & Hle1 & Hle2). exists le.
    assert (le <> s) by congruence.
    split; [reflexivity|]. split; [now rewrite <- H01|].
    apply H35; [assumption|].
    unfold h3. now rewrite lookup_insert_ne by congruence.
  - (* the warnings field *)
    destruct bw; [exact Hn4|].
    destruct Hn4 as (lw & -> & Hlw3 & Hlw4). exists lw.
    assert (lw <> s) by congruence.
    split; [reflexivity|]. split.
    + destruct (h !! lw) as [o|] eqn:Hlw; [|reflexivity].
      rewrite <- H01 in Hlw by assumption.
      apply H13 in Hlw; [congruence | assumption].
    + unfold h5. now rewrite lookup_insert_ne by congruence.
  - (* every other object is left as it was *)
    intros l o Hne Hl. apply H35, H13; try assumption.
    now rewrite H01.
  - (* a list made by the call is no other field's value *)
    assert (Hbe : be = false -> e' <> w').
    { intros ->. destruct bw.
      - simpl in Hn4. subst w'. now apply (Hfr2 eq_refl w true).
      - destruct Hn2 as (le & -> & Hle1 & Hle2).
        destruct Hn4 as (lw & -> & Hlw3 & Hlw4).
        intros [= ->]. assert (lw <> s) by congruence.
        unfold h3 in Hlw3. rewrite lookup_insert_ne in Hlw3 by congruence.
        congruence. }
    intros [Hb | ->]; [now apply Hbe|].
    destruct be; [|now apply Hbe].
    simpl in Hn2. subst e'. intros Heq. symmetry in Heq. revert Heq.
    now apply (Hfr4 eq_refl e true).
Qed.

Lemma new_run h valid errors warnings be bw :
  truth h (default VNone errors) = Ret be ->
  truth h (default VNone warnings) = Ret bw ->
  exists s e' w' h',
    ValidationResult.new valid errors warnings h = Ret (VRef s, h')
    /\ h !! s = None
    /\ h' !! s = Some (OInst ValidationResult.cls
                        (result_attrs (default (VBool true) valid) e' w'))
    /\ normalised h h' (default VNone errors) be e'
    /\ normalised h h' (default VNone warnings) bw w'
    /\ h ⊆ h'
    /\ e' <> VRef s /\ w' <> VRef s
    /\ (be = false \/ bw = false -> e' <> w').
Proof.
  set (v := default (VBool true) valid).
  set (e := default VNone errors). set (w := default VNone warnings).
  intros He Hw.
  unfold ValidationResult.new. fold v e w.
  set (s := fresh (dom h)).
  assert (Hs : h !! s = None) by apply fresh_unused.
  erewrite bind_run by apply alloc_run. fold s.
  set (h0 := <[s := _]> h).
  assert (Hs0 : h0 !! s = Some (OInst ValidationResult.cls ∅))
    by apply lookup_insert_eq.
  assert (He0 : truth h0 e = Ret be)
    by (apply truth_insert_ne; [assumption | discriminate | assumption]).
  assert (Hw0 : truth h0 w = Ret bw)
    by (apply truth_insert_ne; [assumption | discriminate | assumption]).
  destruct (init_run h0 s _ _ v e w be bw Hs0 He0 Hw0)
    as (e' & w' & h' & Hrun & Hs' & Hne & Hnw & Hold & Hdiff).
  erewrite bind_run by exact Hrun.
  assert (H0 : forall l, l <> s -> h0 !! l = h !! l).
  { intros l Hl. unfold h0. now rewrite lookup_insert_ne by congruence. }
  assert (Hfresh : forall x b f,
             truth h x = Ret b -> normalised h0 h' x b f ->
             normalised h h' x b f /\ f <> VRef s).
  { intros x b f Hx Hn. destruct b.
    - simpl in Hn. subst f. split; [reflexivity|].
      now apply (truth_ret_live h x true).
    - destruct Hn as (l & -> & Hl0 & Hl'). assert (l <> s) by congruence.
      split; [|congruence]. exists l. now rewrite <- H0. }
  destruct (Hfresh _ _ _ He Hne) as [Hne' Hes].
  destruct (Hfresh _ _ _ Hw Hnw) as [Hnw' Hws].
  exists s, e', w', h'. repeat split; try assumption.
  apply map_subseteq_spec. intros l o Hl.
  apply Hold; [congruence|]. rewrite H0; [assumption | congruence].
Qed.

End Constructor.

(** ** Reading a constructed result *)

Section Reading.
Implicit Types (h : heap) (l s : loc) (v e w : value).

Lemma result_attrs_valid v e w : result_attrs v e w !! "valid" = Some v.
Proof.
  unfold result_attrs.
  rewrite !lookup_insert_ne by discriminate. apply lookup_insert_eq.
Qed.

Lemma result_attrs_errors v e w : result_attrs v e w !! "errors" = Some e.
Proof.
  unfold result_attrs.
  rewrite lookup_insert_ne by discriminate. apply lookup_insert_eq.
Qed.

Lemma result_attrs_warnings v e w :
  result_attrs v e w !! "warnings" = Some w.
Proof. unfold result_attrs. apply lookup_insert_eq. Qed.

Lemma getattr_result h s c v e w :
  h !! s = Some (OInst c (result_attrs v e w)) ->
  getattr h (VRef s) "valid" = Some v
  /\ getattr h (VRef s) "errors" = Some e
  /\ getattr h (VRef s) "warnings" = Some w.
Proof.
  intros Hs. unfold getattr. rewrite Hs.
  auto using result_attrs_valid, result_attrs_errors, result_attrs_warnings.
Qed.

Lemma list_items_empty h l :
  h !! l = Some (OList []) -> list_items h (VRef l) = Some [].
Proof. intros Hl. unfold list_items. now rewrite Hl. Qed.

(** The shape of every result of the validator: a new instance whose
    fields are two new, distinct, empty lists; nothing else is touched. *)
Lemma validate_run f p h :
  validator f ->
  exists s le lw h',
    f p h = Ret (VRef s, h')
    /\ h !! s = None /\ h !! le = None /\ h !! lw = None
    /\ s <> le /\ s <> lw /\ le <> lw
    /\ h' !! s = Some (OInst ValidationResult.cls
                        (result_attrs (VBool true) (VRef le) (VRef lw)))
    /\ h' !! le = Some (OList [])
    /\ h' !! lw = Some (OList [])
    /\ h ⊆ h'.
Proof.
  intros Hf.
  destruct (new_run h (Some (VBool true)) None None false false
              eq_refl eq_refl)
    as (s & e' & w' & h' & Hrun & Hs & Hs' & He & Hw & Hsub & Hes & Hws & Hd).
  destruct He as (le & -> & Hle & Hle').
  destruct Hw as (lw & -> & Hlw & Hlw').
  exists s, le, lw, h'.
  assert (Hne : VRef le <> VRef lw) by (apply Hd; now left).
  repeat split; try assumption; try congruence.
  destruct Hf as [-> | ->]; exact Hrun.
Qed.

Lemma observe_passed h s le lw c :
  h !! s = Some (OInst c (result_attrs (VBool true) (VRef le) (VRef lw))) ->
  h !! le = Some (OList []) ->
  h !! lw = Some (OList []) ->
  observe h (VRef s) = Some passed.
Proof.
  intros Hs Hle Hlw. unfold observe.
  destruct (getattr_result _ _ _ _ _ _ Hs) as (-> & -> & ->).
  simpl. now rewrite Hle, Hlw.
Qed.

Lemma validator_input : validator validate_agent_input.
Proof. now left. Qed.

Lemma validator_output : validator validate_agent_output.
Proof. now right. Qed.

End Reading.

(** ** The validator always succeeds *)

Section Validator.
Implicit Types (h : heap) (p q : value).

Lemma validate_passes f p h :
  validator f ->
  returns_with (f p) h (fun h' r =>
    is_result h' r
    /\ observe h' r = Some passed
    /\ getattr h' r "valid" = Some (VBool true)
    /\ field_items h' r "errors" = Some []
    /\ field_items h' r "warnings" = Some []).
Proof.
  intros Hf.
  destruct (validate_run f p h Hf)
    as (s & le & lw & h' & Hrun & _ & _ & _ & _ & _ & _ & Hs & Hle & Hlw & _).
  exists (VRef s), h'. split; [exact Hrun|].
  destruct (getattr_result _ _ _ _ _ _ Hs) as (Hv & He & Hw).
  split; [simpl; now rewrite Hs|].
  split; [exact (observe_passed _ _ _ _ _ Hs Hle Hlw)|].
  split; [exact Hv|].
  unfold field_items. rewrite He, Hw. simpl.
  now rewrite Hle, Hlw.
Qed.

Lemma returns_with_impl (m : M value) h (P Q : heap -> value -> Prop) :
  (forall h' r, P h' r -> Q h' r) ->
  returns_with m h P -> returns_with m h Q.
Proof. intros HPQ (r & h' & Hrun & HP). exists r, h'. auto. Qed.

(** Two calls in a row. *)
Lemma validate_twice f g p q h :
  validator f -> validator g ->
  exists r1 h1 r2 h2 ps1 ps2,
    f p h = Ret (r1, h1) /\ g q h1 = Ret (r2, h2)
    /\ observe h1 r1 = Some passed
    /\ observe h2 r1 = Some passed
    /\ observe h2 r2 = Some passed
    /\ h ⊆ h1 /\ h1 ⊆ h2
    /\ parts h2 r1 = Some ps1 /\ parts h2 r2 = Some ps2
    /\ NoDup (ps1 ++ ps2)
    /\ Forall (unused h) (ps1 ++ ps2).
Proof.
  intros Hf Hg.
  destruct (validate_run f p h Hf)
    as (s1 & e1 & w1 & h1 & Hrun1 & Hs1 & He1 & Hw1 & Hse1 & Hsw1 & Hew1
        & Hs1' & He1' & Hw1' & Hsub1).
  destruct (validate_run g q h1 Hg)
    as (s2 & e2 & w2 & h2 & Hrun2 & Hs2 & He2 & Hw2 & Hse2 & Hsw2 & Hew2
        & Hs2' & He2' & Hw2' & Hsub2).
  pose proof (lookup_weaken _ _ _ _ Hs1' Hsub2) as Hs12.
  pose proof (lookup_weaken _ _ _ _ He1' Hsub2) as He12.
  pose proof (lookup_weaken _ _ _ _ Hw1' Hsub2) as Hw12.
  exists (VRef s1), h1, (VRef s2), h2,
    [VRef s1; VRef e1; VRef w1], [VRef s2; VRef e2; VRef w2].
  split; [exact Hrun1|]. split; [exact Hrun2|].
  split; [exact (observe_passed _ _ _ _ _ Hs1' He1' Hw1')|].
  split; [exact (observe_passed _ _ _ _ _ Hs12 He12 Hw12)|].
  split; [exact (observe_passed _ _ _ _ _ Hs2' He2' Hw2')|].
  split; [exact Hsub1|]. split; [exact Hsub2|].
  destruct (getattr_result _ _ _ _ _ _ Hs12) as (_ & Ha1 & Hb1).
  destruct (getattr_result _ _ _ _ _ _ Hs2') as (_ & Ha2 & Hb2).
  split; [unfold parts; now rewrite Ha1, Hb1|].
  split; [unfold parts; now rewrite Ha2, Hb2|].
  split.
  - simpl. rewrite !NoDup_cons, !not_elem_of_cons, !elem_of_nil.
    repeat split;
      first [apply NoDup_nil_2 | tauto | intros [= ->]; congruence].
  - assert (Hold : forall l, h1 !! l = None -> h !! l = None).
    { intros l Hl. destruct (h !! l) as [o|] eqn:Hlo; [|reflexivity].
      now rewrite (lookup_weaken _ _ _ _ Hlo Hsub1) in Hl. }
    simpl. repeat apply Forall_cons_2; try apply Forall_nil_2;
      eexists; (split; [reflexivity | auto]).
Qed.

(** Being a sequence is a matter of the object referred to. *)
Lemma is_sequence_live h h' v b :
  h ⊆ h' -> truth h v = Ret b -> is_sequence h' v = is_sequence h v.
Proof.
  intros Hsub Ht. destruct v; simpl in *; try reflexivity.
  destruct (h !! l) as [o|] eqn:Hl; [|discriminate].
  now rewrite (lookup_weaken _ _ _ _ Hl Hsub).
Qed.


End Validator.

(** C1. Whatever the payload (null, empty, malformed, even a reference the
    store does not know) and whatever the store, [validate_agent_input]
    returns a result whose [valid] is [True], and so does
    [validate_agent_output]. *)
Theorem validate_always_valid (p : value) (h : heap) :
  returns_with (validate_agent_input p) h
    (fun h' r => getattr h' r "valid" = Some (VBool true))
  /\ returns_with (validate_agent_output p) h
    (fun h' r => getattr h' r "valid" = Some (VBool true)).
Proof.
  split.
  - eapply returns_with_impl;
      [|exact (validate_passes _ p h validator_input)].
    intros h' r; cbv beta; tauto.
  - eapply returns_with_impl;
      [|exact (validate_passes _ p h validator_output)].
    intros h' r; cbv beta; tauto.
Qed.

(** C2. For every payload, the result of [validate_agent_input] and of
    [validate_agent_output] has an empty list as [errors] and an empty list
    as [warnings]. *)
Theorem validate_no_errors_no_warnings (p : value) (h : heap) :
  returns_with (validate_agent_input p) h
    (fun h' r => field_items h' r "errors" = Some []
                 /\ field_items h' r "warnings" = Some [])
  /\ returns_with (validate_agent_output p) h
    (fun h' r => field_items h' r "errors" = Some []
                 /\ field_items h' r "warnings" = Some []).
Proof.
  split.
  - eapply returns_with_impl;
      [|exact (validate_passes _ p h validator_input)].
    intros h' r; cbv beta; tauto.
  - eapply returns_with_impl;
      [|exact (validate_passes _ p h validator_output)].
    intros h' r; cbv beta; tauto.
Qed.

(** C3. [ValidationResult()] with no argument is a result with
    [valid = True], [errors = []] and [warnings = []]. *)
Theorem default_result (h : heap) :
  returns_with (ValidationResult.new None None None) h
    (fun h' r => getattr h' r "valid" = Some (VBool true)
                 /\ field_items h' r "errors" = Some []
                 /\ field_items h' r "warnings" = Some []).
Proof.
  destruct (new_run h None None None false false eq_refl eq_refl)
    as (s & e' & w' & h' & Hrun & _ & Hs & He & Hw & _).
  destruct He as (le & -> & _ & Hle). destruct Hw as (lw & -> & _ & Hlw).
  exists (VRef s), h'. split; [exact Hrun|].
  destruct (getattr_result _ _ _ _ _ _ Hs) as (Hv & He & Hw).
  split; [exact Hv|]. unfold field_items. rewrite He, Hw. simpl.
  now rewrite Hle, Hlw.
Qed.

(** C5. Both validate functions are total: on every payload and every
    store they return an instance of [ValidationResult]; they never raise
    and never get stuck. *)
Theorem validators_total (p : value) (h : heap) :
  returns_with (validate_agent_input p) h is_result
  /\ returns_with (validate_agent_output p) h is_result
  /\ (forall x, validate_agent_input p h <> Raise x
                /\ validate_agent_output p h <> Raise x)
  /\ validate_agent_input p h <> Wrong
  /\ validate_agent_output p h <> Wrong.
Proof.
  pose proof (validate_passes _ p h validator_input) as Hi.
  pose proof (validate_passes _ p h validator_output) as Ho.
  split; [eapply returns_with_impl; [|exact Hi]; intros h' r; cbv beta; tauto|].
  split; [eapply returns_with_impl; [|exact Ho]; intros h' r; cbv beta; tauto|].
  destruct Hi as (ri & hi & Hi & _). destruct Ho as (ro & ho & Ho & _).
  rewrite Hi, Ho. repeat split; intros; discriminate.
Qed.

(** C10. The constructor stores [valid] as it is given, boolean or not:
    [ValidationResult(valid=v).valid] is [v] for every value [v]. *)
Theorem valid_stored_unchanged (v : value) (h : heap) :
  returns_with (ValidationResult.new (Some v) None None) h
    (fun h' r => getattr h' r "valid" = Some v).
Proof.
  destruct (new_run h (Some v) None None false false eq_refl eq_refl)
    as (s & e' & w' & h' & Hrun & _ & Hs & _).
  exists (VRef s), h'. split; [exact Hrun|].
  now destruct (getattr_result _ _ _ _ _ _ Hs) as (Hv & _).
Qed.




(** C7. [valid] is not checked against [errors]: for every non-empty
    sequence [errs] (a true sequence), whatever [warnings] is,
    [ValidationResult(valid=True, errors=errs)] returns a result that has
    [valid = True] together with [errs] itself, still non-empty, as its
    [errors]; for a list the items read back are the items passed. *)
Theorem valid_with_errors_constructible
    (h : heap) (errs : value) (warnings : option value) (bw : bool) :
  is_sequence h errs = true ->
  truth h errs = Ret true ->
  truth h (default VNone warnings) = Ret bw ->
  returns_with
    (ValidationResult.new (Some (VBool true)) (Some errs) warnings) h
    (fun h' r =>
       is_result h' r
       /\ getattr h' r "valid" = Some (VBool true)
       /\ getattr h' r "errors" = Some errs
       /\ is_sequence h' errs = true
       /\ truth h' errs = Ret true
       /\ forall xs, list_items h errs = Some xs ->
                     xs <> [] /\ field_items h' r "errors" = Some xs).
Proof.
  intros Hseq Ht Hw.
  destruct (new_run h (Some (VBool true)) (Some errs) warnings true bw Ht Hw)
    as (s & e' & w' & h' & Hrun & _ & Hs & He & _ & Hsub & _).
  simpl in He. subst e'.
  destruct (getattr_result _ _ _ _ _ _ Hs) as (Hv & Herr & _).
  exists (VRef s), h'. split; [exact Hrun|].
  split; [simpl; now rewrite Hs|].
  split; [exact Hv|]. split; [exact Herr|].
  split; [now rewrite (is_sequence_live _ _ _ _ Hsub Ht)|].
  split; [exact (truth_mono _ _ _ _ Hsub Ht)|].
  intros xs Hxs. split.
  - intros ->. destruct errs; simpl in Hxs, Ht; try discriminate.
    destruct (h !! l) as [[]|]; try discriminate.
    injection Hxs as ->. discriminate.
  - unfold field_items. rewrite Herr. simpl.
    destruct errs; simpl in Hxs |- *; try discriminate.
    destruct (h !! l) as [o|] eqn:Hl; [|discriminate].
    now rewrite (lookup_weaken _ _ _ _ Hl Hsub).
Qed.

Lemma valid_with_errors_constructible_witness :
  is_sequence sample_store (VRef 1%positive) = true
  /\ truth sample_store (VRef 1%positive) = Ret true
  /\ truth sample_store (default VNone None) = Ret false
  /\ returns_with
       (ValidationResult.new (Some (VBool true)) (Some (VRef 1%positive))
          None) sample_store
       (fun h' r =>
          is_result h' r
          /\ getattr h' r "valid" = Some (VBool true)
          /\ getattr h' r "errors" = Some (VRef 1%positive)
          /\ is_sequence h' (VRef 1%positive) = true
          /\ truth h' (VRef 1%positive) = Ret true
          /\ forall xs, list_items sample_store (VRef 1%positive) = Some xs ->
                        xs <> [] /\ field_items h' r "errors" = Some xs).
Proof.
  split; [reflexivity|]. split; [reflexivity|]. split; [reflexivity|].
  apply (valid_with_errors_constructible sample_store (VRef 1%positive)
           None false); reflexivity.
Defined.

(** C6. Two calls of the validate functions on any two payloads, one after
    the other in either order, do not interfere: each ignores its payload,
    both results read [valid=True, errors=[], warnings=[]], the second call
    leaves the first result and every older object as they were, and the
    six objects the two results are made of are pairwise distinct and all
    new, so no list or instance is shared between the calls. *)
Theorem validators_do_not_interfere
    (f g : value -> M value) (p q : value) (h : heap) :
  validator f -> validator g ->
  f q h = f p h /\ g p h = g q h
  /\ (exists r1 h1 r2 h2 ps1 ps2,
        f p h = Ret (r1, h1) /\ g q h1 = Ret (r2, h2)
        /\ observe h1 r1 = Some passed
        /\ observe h2 r1 = Some passed
        /\ observe h2 r2 = Some passed
        /\ h ⊆ h1 /\ h1 ⊆ h2
        /\ parts h2 r1 = Some ps1 /\ parts h2 r2 = Some ps2
        /\ NoDup (ps1 ++ ps2)
        /\ Forall (unused h) (ps1 ++ ps2))
  /\ (exists r2 k1 r1 k2,
        g q h = Ret (r2, k1) /\ f p k1 = Ret (r1, k2)
        /\ observe k2 r1 = Some passed
        /\ observe k2 r2 = Some passed).
Proof.
  intros Hf Hg.
  split; [destruct Hf as [-> | ->]; reflexivity|].
  split; [destruct Hg as [-> | ->]; reflexivity|].
  split; [exact (validate_twice f g p q h Hf Hg)|].
  destruct (validate_twice g f q p h Hg Hf)
    as (r2 & k1 & r1 & k2 & _ & _ & Hg1 & Hf2 & _ & Ho2 & Ho1 & _).
  now exists r2, k1, r1, k2.
Qed.

Lemma validators_do_not_interfere_witness :
  validator validate_agent_input
  /\ validator validate_agent_output
  /\ validate_agent_input (VRef 1%positive) sample_store
     = validate_agent_input VNone sample_store
  /\ validate_agent_output VNone sample_store
     = validate_agent_output (VRef 1%positive) sample_store
  /\ (exists r1 h1 r2 h2 ps1 ps2,
        validate_agent_input VNone sample_store = Ret (r1, h1)
        /\ validate_agent_output (VRef 1%positive) h1 = Ret (r2, h2)
        /\ observe h1 r1 = Some passed
        /\ observe h2 r1 = Some passed
        /\ observe h2 r2 = Some passed
        /\ sample_store ⊆ h1 /\ h1 ⊆ h2
        /\ parts h2 r1 = Some ps1 /\ parts h2 r2 = Some ps2
        /\ NoDup (ps1 ++ ps2)
        /\ Forall (unused sample_store) (ps1 ++ ps2))
  /\ (exists r2 k1 r1 k2,
        validate_agent_output (VRef 1%positive) sample_store = Ret (r2, k1)
        /\ validate_agent_input VNone k1 = Ret (r1, k2)
        /\ observe k2 r1 = Some passed
        /\ observe k2 r2 = Some passed).
Proof.
  split; [left; reflexivity|]. split; [right; reflexivity|].
  apply (validators_do_not_interfere
           validate_agent_input validate_agent_output
           VNone (VRef 1%positive) sample_store);
    [left | right]; reflexivity.
Defined.

(** C8. The two validate functions are extensionally equal: run from the
    same store on the same payload they have the same outcome, and run one
    after the other the two results have equal [valid], [errors] and
    [warnings]. *)
Theorem validators_extensionally_equal (p : value) (h : heap) :
  validate_agent_input p h = validate_agent_output p h
  /\ exists r1 h1 r2 h2,
       validate_agent_input p h = Ret (r1, h1)
       /\ validate_agent_output p h1 = Ret (r2, h2)
       /\ observe h2 r1 = observe h2 r2
       /\ observe h2 r2 = Some passed.
Proof.
  split; [reflexivity|].
  destruct (validate_twice _ _ p p h validator_input validator_output)
    as (r1 & h1 & r2 & h2 & _ & _ & H1 & H2 & _ & Ho1 & Ho2 & _).
  exists r1, h1, r2, h2. repeat split; congruence.
Qed.

(** C9. The constructor normalises [errors] and [warnings] by truth value:
    [None], [False], [0], the empty string and an empty list are all false;
    a false argument is replaced by a list that did not exist before the
    call and is empty, different for the two fields; a true argument is
    stored as the very same value, and the object it refers to (like every
    object of the store) is left as it was. *)
Theorem normalisation_by_truthiness
    (h : heap) (valid errors warnings : option value) (be bw : bool) :
  truth h (default VNone errors) = Ret be ->
  truth h (default VNone warnings) = Ret bw ->
  (truth h VNone = Ret false
   /\ truth h (VBool false) = Ret false
   /\ truth h (VInt 0) = Ret false
   /\ truth h (VStr "") = Ret false
   /\ forall l, h !! l = Some (OList []) -> truth h (VRef l) = Ret false)
  /\ exists s e' w' h',
       ValidationResult.new valid errors warnings h = Ret (VRef s, h')
       /\ getattr h' (VRef s) "errors" = Some e'
       /\ getattr h' (VRef s) "warnings" = Some w'
       /\ normalised h h' (default VNone errors) be e'
       /\ normalised h h' (default VNone warnings) bw w'
       /\ h ⊆ h'
       /\ (be = false \/ bw = false -> e' <> w').
Proof.
  intros He Hw. split.
  - repeat split. intros l Hl. simpl. now rewrite Hl.
  - destruct (new_run h valid errors warnings be bw He Hw)
      as (s & e' & w' & h' & Hrun & _ & Hs & Hne & Hnw & Hsub & _ & _ & Hd).
    destruct (getattr_result _ _ _ _ _ _ Hs) as (_ & Hge & Hgw).
    now exists s, e', w', h'.
Qed.

Lemma normalisation_by_truthiness_witness :
  truth sample_store (default VNone (Some (VRef 2%positive))) = Ret false
  /\ truth sample_store (default VNone (Some (VRef 1%positive))) = Ret true
  /\ (truth sample_store VNone = Ret false
      /\ truth sample_store (VBool false) = Ret false
      /\ truth sample_store (VInt 0) = Ret false
      /\ truth sample_store (VStr "") = Ret false
      /\ forall l, sample_store !! l = Some (OList []) ->
                   truth sample_store (VRef l) = Ret false)
  /\ exists s e' w' h',
       ValidationResult.new None (Some (VRef 2%positive))
         (Some (VRef 1%positive)) sample_store = Ret (VRef s, h')
       /\ getattr h' (VRef s) "errors" = Some e'
       /\ getattr h' (VRef s) "warnings" = Some w'
       /\ normalised sample_store h'
            (default VNone (Some (VRef 2%positive))) false e'
       /\ normalised sample_store h'
            (default VNone (Some (VRef 1%positive))) true w'
       /\ sample_store ⊆ h'
       /\ (false = false \/ true = false -> e' <> w').
Proof.
  split; [reflexivity|]. split; [reflexivity|].
  apply (normalisation_by_truthiness sample_store None
           (Some (VRef 2%positive)) (Some (VRef 1%positive)) false true);
    reflexivity.
Defined.

(** The constructor itself is partial: on an argument whose truth test
    raises, it raises too and no result is constructed. *)
Remark constructor_may_raise :
  ValidationResult.new None (Some (VRef 3%positive)) None sample_store
  = Raise (Exn "ValueError").
Proof. reflexivity. Qed.

(** ** When the constructor raises, and what it allocates *)

Section Effects.
Implicit Types (h : heap) (l s : loc) (v e w : value).

Lemma bind_raise {A B} (m : M A) (k : A -> M B) h x :
  m h = Raise x -> (m ≫= k) h = Raise x.
Proof. intros Hm. unfold mbind, M_bind, bind. now rewrite Hm. Qed.

(** Every outcome of the truth test but [Wrong] survives the growth of the
    store. *)
Lemma truth_weaken h h' v (b : outcome bool) :
  h ⊆ h' -> b <> Wrong -> truth h v = b -> truth h' v = b.
Proof.
  intros Hsub Hb Ht. destruct v; simpl in *; try exact Ht.
  destruct (h !! l) as [o|] eqn:Hl; [|congruence].
  now rewrite (lookup_weaken _ _ _ _ Hl Hsub).
Qed.

Lemma py_or_raise h x (y : M value) exc :
  truth h x = Raise exc -> py_or x y h = Raise exc.
Proof. intros Ht. unfold py_or. now rewrite Ht. Qed.

(** The truth test of an argument, seen from inside [__init__]: the new
    instance and the assignments to it do not change it. *)
Lemma truth_in_init h s c a a' v (b : outcome bool) :
  h !! s = None -> b <> Wrong ->
  truth h v = b ->
  truth (<[s := OInst c a']> (<[s := OInst c a]> h)) v = b.
Proof.
  intros Hs Hb Ht.
  rewrite (truth_override _ _ c a a' v) by apply lookup_insert_eq.
  now apply truth_insert_ne.
Qed.

Lemma new_raises_on_errors h valid errors warnings x :
  truth h (default VNone errors) = Raise x ->
  ValidationResult.new valid errors warnings h = Raise x.
Proof.
  intros He. unfold ValidationResult.new, ValidationResult.__init__.
  pose proof (fresh_unused h) as Hs.
  erewrite bind_run by apply alloc_run.
  apply bind_raise.
  erewrite bind_run by (apply setattr_run, lookup_insert_eq).
  apply bind_raise, py_or_raise.
  apply truth_in_init; [assumption | discriminate | assumption].
Qed.

Lemma new_raises_on_warnings h valid errors warnings b x :
  truth h (default VNone errors) = Ret b ->
  truth h (default VNone warnings) = Raise x ->
  ValidationResult.new valid errors warnings h = Raise x.
Proof.
  intros He Hw. unfold ValidationResult.new, ValidationResult.__init__.
  pose proof (fresh_unused h) as Hs.
  erewrite bind_run by apply alloc_run.
  apply bind_raise.
  erewrite bind_run by (apply setattr_run, lookup_insert_eq).
  set (h1 := <[fresh (dom h) := _]> (<[fresh (dom h) := _]> h)).
  assert (He1 : truth h1 (default VNone errors) = Ret b)
    by (apply truth_in_init; [assumption | discriminate | assumption]).
  assert (Hw1 : truth h1 (default VNone warnings) = Raise x)
    by (apply truth_in_init; [assumption | discriminate | assumption]).
  destruct (or_empty_run h1 _ b He1) as (e' & h2 & Hrun2 & _ & Hsub2 & _).
  erewrite bind_run by exact Hrun2.
  assert (Hs2 : h2 !! fresh (dom h)
                = Some (OInst ValidationResult.cls
                          (<["valid" := default (VBool true) valid]> ∅))).
  { apply (lookup_weaken h1); [apply lookup_insert_eq | exact Hsub2]. }
  erewrite bind_run by (apply setattr_run; exact Hs2).
  apply bind_raise, py_or_raise.
  rewrite (truth_override _ _ _ _ _ _ Hs2).
  apply (truth_weaken h1); [assumption | discriminate | assumption].
Qed.

End Effects.

(** X1. The constructor raises exactly when the truth test of an argument
    raises, [errors] being tested before [warnings]: it raises [x] if and
    only if testing [errors] raises [x], or testing [errors] returns and
    testing [warnings] raises [x]. *)
Theorem constructor_raises_iff
    (h : heap) (valid errors warnings : option value) (x : exn) :
  truth h (default VNone errors) <> Wrong ->
  truth h (default VNone warnings) <> Wrong ->
  ValidationResult.new valid errors warnings h = Raise x
  <-> (truth h (default VNone errors) = Raise x
       \/ ((exists b, truth h (default VNone errors) = Ret b)
           /\ truth h (default VNone warnings) = Raise x)).
Proof.
  intros Hne Hnw. split.
  - intros Hrun.
    destruct (truth h (default VNone errors)) as [be|y|] eqn:He;
      [|left|congruence].
    + right. split; [now exists be|].
      destruct (truth h (default VNone warnings)) as [bw|y|] eqn:Hw;
        [|
         |congruence].
      * destruct (new_run h valid errors warnings be bw He Hw)
          as (s & e' & w' & h' & Hret & _).
        congruence.
      * rewrite (new_raises_on_warnings h valid errors warnings be y He Hw)
          in Hrun.
        congruence.
    + rewrite (new_raises_on_errors h valid errors warnings y He) in Hrun.
      congruence.
  - intros [He | [[b He] Hw]].
    + now apply new_raises_on_errors.
    + now apply (new_raises_on_warnings h valid errors warnings b).
Qed.

Lemma constructor_raises_iff_witness :
  truth sample_store (default VNone (Some (VRef 2%positive))) <> Wrong
  /\ truth sample_store (default VNone (Some (VRef 3%positive))) <> Wrong
  /\ (ValidationResult.new None (Some (VRef 2%positive))
        (Some (VRef 3%positive)) sample_store = Raise (Exn "ValueError")
      <-> (truth sample_store (default VNone (Some (VRef 2%positive)))
           = Raise (Exn "ValueError")
           \/ ((exists b,
                  truth sample_store (default VNone (Some (VRef 2%positive)))
                  = Ret b)
               /\ truth sample_store (default VNone (Some (VRef 3%positive)))
                  = Raise (Exn "ValueError")))).
Proof.
  split; [discriminate|]. split; [discriminate|].
  apply (constructor_raises_iff sample_store None
           (Some (VRef 2%positive)) (Some (VRef 3%positive))
           (Exn "ValueError")); discriminate.
Defined.

Section Footprint.
Implicit Types (h : heap) (l s : loc) (v e w : value).

Lemma or_empty_size h x b f h' :
  truth h x = Ret b ->
  py_or x (new_list []) h = Ret (f, h') ->
  size h' = (size h + if b then 0 else 1)%nat.
Proof.
  intros Ht. unfold py_or. rewrite Ht. destruct b.
  - intros [= _ <-]. lia.
  - unfold new_list. intros [= _ <-].
    rewrite map_size_insert_None by apply fresh_unused. lia.
Qed.

Lemma setattr_size h l o o' :
  h !! l = Some o -> size (<[l := o']> h) = size h.
Proof. intros Hl. apply map_size_insert_Some. now exists o. Qed.

Lemma new_size h valid errors warnings be bw r h' :
  truth h (default VNone errors) = Ret be ->
  truth h (default VNone warnings) = Ret bw ->
  ValidationResult.new valid errors warnings h = Ret (r, h') ->
  size h' = (size h + 1 + (if be then 0 else 1) + (if bw then 0 else 1))%nat.
Proof.
  intros He Hw. unfold ValidationResult.new, ValidationResult.__init__.
  pose proof (fresh_unused h) as Hs.
  erewrite bind_run by apply alloc_run.
  set (s := fresh (dom h)) in *.
  set (h0 := <[s := _]> h).
  assert (Hs0 : h0 !! s = Some (OInst ValidationResult.cls ∅))
    by apply lookup_insert_eq.
  assert (Hz0 : size h0 = S (size h)) by now apply map_size_insert_None.
  unfold mbind at 1, M_bind at 1, bind at 1.
  erewrite bind_run by (apply setattr_run; exact Hs0).
  set (h1 := <[s := _]> h0).
  assert (Hz1 : size h1 = size h0) by exact (setattr_size _ _ _ _ Hs0).
  assert (He1 : truth h1 (default VNone errors) = Ret be)
    by (apply truth_in_init; [assumption | discriminate | assumption]).
  assert (Hw1 : truth h1 (default VNone warnings) = Ret bw)
    by (apply truth_in_init; [assumption | discriminate | assumption]).
  destruct (or_empty_run h1 _ be He1) as (e' & h2 & Hrun2 & _ & Hsub2 & _).
  pose proof (or_empty_size _ _ _ _ _ He1 Hrun2) as Hz2.
  erewrite bind_run by exact Hrun2.
  assert (Hs2 : h2 !! s = Some (OInst ValidationResult.cls
                               (<["valid" := default (VBool true) valid]> ∅))).
  { apply (lookup_weaken h1); [apply lookup_insert_eq | exact Hsub2]. }
  erewrite bind_run by (apply setattr_run; exact Hs2).
  set (h3 := <[s := _]> h2).
  assert (Hz3 : size h3 = size h2) by exact (setattr_size _ _ _ _ Hs2).
  assert (Hw3 : truth h3 (default VNone warnings) = Ret bw).
  { unfold h3. rewrite (truth_override _ _ _ _ _ _ Hs2).
    exact (truth_mono _ _ _ _ Hsub2 Hw1). }
  destruct (or_empty_run h3 _ bw Hw3) as (w' & h4 & Hrun4 & _ & Hsub4 & _).
  pose proof (or_empty_size _ _ _ _ _ Hw3 Hrun4) as Hz4.
  erewrite bind_run by exact Hrun4.
  assert (Hs4 : h4 !! s
                = Some (OInst ValidationResult.cls
                          (<["errors" := e']>
                             (<["valid" := default (VBool true) valid]> ∅)))).
  { apply (lookup_weaken h3); [apply lookup_insert_eq | exact Hsub4]. }
  rewrite (setattr_run _ _ _ _ _ _ Hs4).
  intros [= _ <-].
  rewrite (setattr_size _ _ _ _ Hs4). lia.
Qed.

End Footprint.

Section Results.
Implicit Types (h : heap) (l s : loc) (v e w : value).

Lemma list_items_truth h v xs :
  list_items h v = Some xs -> truth h v = Ret (negb (is_nil xs)).
Proof.
  destruct v; simpl; try discriminate.
  destruct (h !! l) as [[]|]; try discriminate. now intros [= ->].
Qed.

Lemma list_items_mono h h' v xs :
  h ⊆ h' -> list_items h v = Some xs -> list_items h' v = Some xs.
Proof.
  intros Hsub. destruct v; simpl; try discriminate.
  destruct (h !! l) as [o|] eqn:Hl; [|discriminate].
  now rewrite (lookup_weaken _ _ _ _ Hl Hsub).
Qed.

(** What [arg or []] stores for an argument that is a list: a value with
    the same items, the argument itself exactly when it is not empty. *)
Lemma normalised_list h h' arg xs f :
  h ⊆ h' ->
  list_items h arg = Some xs ->
  normalised h h' arg (negb (is_nil xs)) f ->
  list_items h' f = Some xs /\ (f = arg <-> xs <> []).
Proof.
  intros Hsub Hxs Hn. destruct xs as [|x xs]; simpl in Hn.
  - destruct Hn as (l & -> & Hl & Hl'). split.
    + simpl. now rewrite Hl'.
    + split; [|congruence]. intros <-. simpl in Hxs. now rewrite Hl in Hxs.
  - subst f. split; [now apply (list_items_mono h)|]. split; congruence.
Qed.

Lemma union_all_subseteq (D D' A B : gset positive) (s : positive) :
  D ⊆ D' -> s ∈ D' -> A ⊆ D' -> B ⊆ D' -> D ∪ {[s]} ∪ A ∪ B ⊆ D'.
Proof. set_solver. Qed.

Lemma union_all_size (D A B : gset positive) (s : positive) :
  s ∉ D -> A ## D -> B ## D -> s ∉ A -> s ∉ B -> A ## B ->
  size (D ∪ {[s]} ∪ A ∪ B) = (size D + 1 + size A + size B)%nat.
Proof.
  intros HsD HAD HBD HsA HsB HAB.
  rewrite !size_union, size_singleton; [reflexivity | | |]; set_solver.
Qed.

Lemma made_true f : made true f = ∅.
Proof. reflexivity. Qed.

Lemma made_false l : made false (VRef l) = {[l]}.
Proof. reflexivity. Qed.

End Results.

(** X2. For arguments whose truth test is Python's own and returns, a
    call of the constructor changes and removes no object of the store, and
    the objects it adds are exactly the new instance and, for each of
    [errors] and [warnings] that is false, the new empty list stored in that
    field; for an argument that is true no list is made. *)
Theorem constructor_allocation
    (h : heap) (valid errors warnings : option value) (be bw : bool) :
  truth_is_builtin h (default VNone errors) = true ->
  truth_is_builtin h (default VNone warnings) = true ->
  truth h (default VNone errors) = Ret be ->
  truth h (default VNone warnings) = Ret bw ->
  exists s e' w' h',
    ValidationResult.new valid errors warnings h = Ret (VRef s, h')
    /\ h ⊆ h'
    /\ h !! s = None
    /\ is_result h' (VRef s)
    /\ getattr h' (VRef s) "errors" = Some e'
    /\ getattr h' (VRef s) "warnings" = Some w'
    /\ normalised h h' (default VNone errors) be e'
    /\ normalised h h' (default VNone warnings) bw w'
    /\ dom h' = dom h ∪ {[s]} ∪ made be e' ∪ made bw w'
    /\ size h'
       = (size h + 1 + (if be then 0 else 1) + (if bw then 0 else 1))%nat.
Proof.
  intros _ _ He Hw.
  destruct (new_run h valid errors warnings be bw He Hw)
    as (s & e' & w' & h' & Hrun & Hs & Hs' & Hne & Hnw & Hsub & Hes & Hws
        & Hd).
  pose proof (new_size h valid errors warnings be bw _ _ He Hw Hrun) as Hz.
  destruct (getattr_result _ _ _ _ _ _ Hs') as (_ & Hge & Hgw).
  exists s, e', w', h'.
  split; [exact Hrun|]. split; [exact Hsub|]. split; [exact Hs|].
  split; [simpl; now rewrite Hs'|].
  split; [exact Hge|]. split; [exact Hgw|].
  split; [exact Hne|]. split; [exact Hnw|]. split; [|exact Hz].
  symmetry. apply set_subseteq_size_eq.
  - (* every object named is in the final store *)
    assert (Hin : forall b arg f,
               normalised h h' arg b f -> made b f ⊆ dom h').
    { intros b arg f Hn. destruct b; [rewrite made_true; set_solver|].
      destruct Hn as (l & -> & _ & Hl). rewrite made_false.
      apply singleton_subseteq_l, elem_of_dom. now exists (OList []). }
    pose proof (subseteq_dom _ _ Hsub) as Hdom.
    assert (s ∈ dom h') by (apply elem_of_dom; eauto).
    apply union_all_subseteq;
      [exact Hdom | assumption | exact (Hin _ _ _ Hne) | exact (Hin _ _ _ Hnw)].
  - (* and there are as many of them as objects in the final store *)
    rewrite size_dom, Hz.
    assert (Hm : forall b arg f,
               normalised h h' arg b f -> f <> VRef s ->
               (made b f ## dom h) /\ (s ∉ made b f)
               /\ size (made b f) = (if b then 0%nat else 1%nat)).
    { intros b arg f Hn Hfs. destruct b.
      - rewrite made_true.
        split; [apply disjoint_empty_l|].
        split; [apply not_elem_of_empty | apply size_empty].
      - destruct Hn as (l & -> & Hl & _). rewrite made_false.
        split; [|split; [|apply size_singleton]].
        + apply disjoint_singleton_l, not_elem_of_dom, Hl.
        + apply not_elem_of_singleton. congruence. }
    destruct (Hm _ _ _ Hne Hes) as (Hde & Hse & Hze).
    destruct (Hm _ _ _ Hnw Hws) as (Hdw & Hsw & Hzw).
    assert (Hew : made be e' ## made bw w').
    { destruct be; [rewrite made_true; apply disjoint_empty_l|].
      destruct bw; [rewrite made_true; apply disjoint_empty_r|].
      destruct Hne as (le & -> & _). destruct Hnw as (lw & -> & _).
      rewrite !made_false.
      apply disjoint_singleton_l, not_elem_of_singleton.
      intros ->. apply Hd; [now left | reflexivity]. }
    assert (Hsh : s ∉ dom h) by now apply not_elem_of_dom.
    rewrite union_all_size by assumption.
    rewrite size_dom, Hze, Hzw. lia.
Qed.

Lemma constructor_allocation_witness :
  truth_is_builtin sample_store (default VNone (Some (VRef 1%positive)))
  = true
  /\ truth_is_builtin sample_store (default VNone None) = true
  /\ truth sample_store (default VNone (Some (VRef 1%positive))) = Ret true
  /\ truth sample_store (default VNone None) = Ret false
  /\ exists s e' w' h',
       ValidationResult.new None (Some (VRef 1%positive)) None sample_store
       = Ret (VRef s, h')
       /\ sample_store ⊆ h'
       /\ sample_store !! s = None
       /\ is_result h' (VRef s)
       /\ getattr h' (VRef s) "errors" = Some e'
       /\ getattr h' (VRef s) "warnings" = Some w'
       /\ normalised sample_store h'
            (default VNone (Some (VRef 1%positive))) true e'
       /\ normalised sample_store h' (default VNone None) false w'
       /\ dom h' = dom sample_store ∪ {[s]} ∪ made true e' ∪ made false w'
       /\ size h' = (size sample_store + 1 + 0 + 1)%nat.
Proof.
  split; [reflexivity|]. split; [reflexivity|].
  split; [reflexivity|]. split; [reflexivity|].
  apply (constructor_allocation sample_store None
           (Some (VRef 1%positive)) None true false); reflexivity.
Defined.


(** X4. A constructed result is true in a condition whatever its [valid]
    is (the class has no [__bool__]): [if ValidationResult(valid=False):]
    takes the branch. *)
Theorem result_is_always_true
    (h : heap) (valid errors warnings : option value) (be bw : bool) :
  truth h (default VNone errors) = Ret be ->
  truth h (default VNone warnings) = Ret bw ->
  returns_with (ValidationResult.new valid errors warnings) h
    (fun h' r =>
       getattr h' r "valid" = Some (default (VBool true) valid)
       /\ truth h' r = Ret true).
Proof.
  intros He Hw.
  destruct (new_run h valid errors warnings be bw He Hw)
    as (s & e' & w' & h' & Hrun & _ & Hs & _).
  exists (VRef s), h'. split; [exact Hrun|].
  destruct (getattr_result _ _ _ _ _ _ Hs) as (Hv & _).
  split; [exact Hv|]. simpl. now rewrite Hs.
Qed.

Lemma result_is_always_true_witness :
  truth sample_store (default VNone None) = Ret false
  /\ truth sample_store (default VNone (Some (VRef 1%positive))) = Ret true
  /\ returns_with
       (ValidationResult.new (Some (VBool false)) None
          (Some (VRef 1%positive))) sample_store
       (fun h' r =>
          getattr h' r "valid" = Some (default (VBool true)
                                         (Some (VBool false)))
          /\ truth h' r = Ret true).
Proof.
  split; [reflexivity|]. split; [reflexivity|].
  apply (result_is_always_true sample_store (Some (VBool false)) None
           (Some (VRef 1%positive)) false true); reflexivity.
Defined.

(** X5. [vars(r)] of a constructed result, the attributes stored on the
    instance itself, has exactly the three keys [valid], [errors] and
    [warnings], with the [valid] argument under [valid]: [__init__] sets no
    other instance attribute. *)
Theorem result_vars_three_keys
    (h : heap) (valid errors warnings : option value) (be bw : bool) :
  truth h (default VNone errors) = Ret be ->
  truth h (default VNone warnings) = Ret bw ->
  returns_with (ValidationResult.new valid errors warnings) h
    (fun h' r =>
       is_result h' r
       /\ exists d : gmap string value,
            vars h' r = Some d
            /\ dom d = {[ "valid"; "errors"; "warnings" ]}
            /\ d !! "valid" = Some (default (VBool true) valid)).
Proof.
  intros He Hw.
  destruct (new_run h valid errors warnings be bw He Hw)
    as (s & e' & w' & h' & Hrun & _ & Hs & _).
  exists (VRef s), h'. split; [exact Hrun|].
  split; [simpl; now rewrite Hs|].
  exists (result_attrs (default (VBool true) valid) e' w').
  split; [simpl; now rewrite Hs|].
  split; [|apply result_attrs_valid].
  unfold result_attrs. rewrite !dom_insert_L, dom_empty_L. set_solver.
Qed.

Lemma result_vars_three_keys_witness :
  truth sample_store (default VNone None) = Ret false
  /\ truth sample_store (default VNone (Some (VRef 1%positive))) = Ret true
  /\ returns_with
       (ValidationResult.new None None (Some (VRef 1%positive))) sample_store
       (fun h' r =>
          is_result h' r
          /\ exists d : gmap string value,
               vars h' r = Some d
               /\ dom d = {[ "valid"; "errors"; "warnings" ]}
               /\ d !! "valid" = Some (default (VBool true) None)).
Proof.
  split; [reflexivity|]. split; [reflexivity|].
  apply (result_vars_three_keys sample_store None None
           (Some (VRef 1%positive)) false true); reflexivity.
Defined.

(** X6. Lists passed as [errors] and [warnings] are read back item for
    item from the result, empty or not; the field is the very list that was
    passed exactly when that list is not empty (an empty one is replaced by
    another empty list). *)
Theorem list_arguments_read_back
    (h : heap) (valid : option value) (e w : value) (xs ys : list value) :
  list_items h e = Some xs ->
  list_items h w = Some ys ->
  returns_with (ValidationResult.new valid (Some e) (Some w)) h
    (fun h' r =>
       field_items h' r "errors" = Some xs
       /\ field_items h' r "warnings" = Some ys
       /\ (getattr h' r "errors" = Some e <-> xs <> [])
       /\ (getattr h' r "warnings" = Some w <-> ys <> [])).
Proof.
  intros Hxs Hys.
  destruct (new_run h valid (Some e) (Some w) _ _
              (list_items_truth _ _ _ Hxs) (list_items_truth _ _ _ Hys))
    as (s & e' & w' & h' & Hrun & _ & Hs & He & Hw & Hsub & _).
  destruct (getattr_result _ _ _ _ _ _ Hs) as (_ & Hge & Hgw).
  destruct (normalised_list _ _ _ _ _ Hsub Hxs He) as [Hie Hide].
  destruct (normalised_list _ _ _ _ _ Hsub Hys Hw) as [Hiw Hidw].
  exists (VRef s), h'. split; [exact Hrun|].
  unfold field_items. rewrite Hge, Hgw. simpl.
  repeat split; try assumption.
  - intros [= Heq]. now apply Hide.
  - intros Hne. f_equal. now apply Hide.
  - intros [= Heq]. now apply Hidw.
  - intros Hne. f_equal. now apply Hidw.
Qed.

Lemma list_arguments_read_back_witness :
  list_items sample_store (VRef 1%positive)
  = Some [VStr "name: field required"]
  /\ list_items sample_store (VRef 2%positive) = Some []
  /\ returns_with
       (ValidationResult.new None (Some (VRef 1%positive))
          (Some (VRef 2%positive))) sample_store
       (fun h' r =>
          field_items h' r "errors" = Some [VStr "name: field required"]
          /\ field_items h' r "warnings" = Some []
          /\ (getattr h' r "errors" = Some (VRef 1%positive)
              <-> [VStr "name: field required"] <> [])
          /\ (getattr h' r "warnings" = Some (VRef 2%positive)
              <-> @nil value <> [])).
Proof.
  split; [reflexivity|]. split; [reflexivity|].
  apply (list_arguments_read_back sample_store None
           (VRef 1%positive) (VRef 2%positive)); reflexivity.
Defined.

(** X7. Two results built one after the other from the same non-empty list
    are different instances that share that list as their [errors] (it is
    not copied), while each gets a [warnings] list of its own. *)
Theorem same_list_is_shared
    (h : heap) (v1 v2 : option value) (e x : value) (xs : list value) :
  list_items h e = Some (x :: xs) ->
  exists r1 h1 r2 h2,
    ValidationResult.new v1 (Some e) None h = Ret (r1, h1)
    /\ ValidationResult.new v2 (Some e) None h1 = Ret (r2, h2)
    /\ r1 <> r2
    /\ getattr h2 r1 "errors" = Some e
    /\ getattr h2 r2 "errors" = Some e
    /\ field_items h2 r1 "errors" = Some (x :: xs)
    /\ getattr h2 r1 "warnings" <> getattr h2 r2 "warnings".
Proof.
  intros Hxs.
  pose proof (list_items_truth _ _ _ Hxs) as Ht. simpl in Ht.
  destruct (new_run h v1 (Some e) None true false Ht eq_refl)
    as (s1 & e1 & w1 & h1 & Hrun1 & _ & Hs1 & He1 & Hw1 & Hsub1 & _).
  simpl in He1. subst e1. destruct Hw1 as (l1 & -> & _ & Hl1).
  pose proof (truth_mono _ _ _ _ Hsub1 Ht) as Ht1.
  destruct (new_run h1 v2 (Some e) None true false Ht1 eq_refl)
    as (s2 & e2 & w2 & h2 & Hrun2 & Hs2 & Hs2' & He2 & Hw2 & Hsub2 & _).
  simpl in He2. subst e2. destruct Hw2 as (l2 & -> & Hl2 & _).
  pose proof (lookup_weaken _ _ _ _ Hs1 Hsub2) as Hs12.
  destruct (getattr_result _ _ _ _ _ _ Hs12) as (_ & Hge1 & Hgw1).
  destruct (getattr_result _ _ _ _ _ _ Hs2') as (_ & Hge2 & Hgw2).
  exists (VRef s1), h1, (VRef s2), h2.
  split; [exact Hrun1|]. split; [exact Hrun2|].
  split; [intros [= ->]; congruence|].
  split; [exact Hge1|]. split; [exact Hge2|].
  split.
  - unfold field_items. rewrite Hge1. simpl.
    apply (list_items_mono h); [|exact Hxs].
    now transitivity h1.
  - rewrite Hgw1, Hgw2. intros [= ->]. congruence.
Qed.

Lemma same_list_is_shared_witness :
  list_items sample_store (VRef 1%positive)
  = Some [VStr "name: field required"]
  /\ exists r1 h1 r2 h2,
       ValidationResult.new (Some (VBool false)) (Some (VRef 1%positive))
         None sample_store = Ret (r1, h1)
       /\ ValidationResult.new None (Some (VRef 1%positive)) None h1
          = Ret (r2, h2)
       /\ r1 <> r2
       /\ getattr h2 r1 "errors" = Some (VRef 1%positive)
       /\ getattr h2 r2 "errors" = Some (VRef 1%positive)
       /\ field_items h2 r1 "errors" = Some [VStr "name: field required"]
       /\ getattr h2 r1 "warnings" <> getattr h2 r2 "warnings".
Proof.
  split; [reflexivity|].
  apply (same_list_is_shared sample_store (Some (VBool false)) None
           (VRef 1%positive) (VStr "name: field required") []).
  reflexivity.
Defined.
